(** * Fast-chroot: the [lxc_runtime] command-line shim

    A shallow embedding of [src/lxc_runtime/runtime.cpp] and the
    properties of its three functions [show_help], [runtime] and [main].

    The program talks to the outside world in two ways only: it writes to
    [std::cout] and it calls [system(3)].  Both are kept as syntax in a
    small command tree ([io]); an interpreter ([exec]) runs a tree against
    an environment that decides how every [system] call ends, and records
    what the program did as a trace of events. *)

From Stdlib Require Import ZArith String Ascii List Bool Lia.
Import ListNotations.

Local Open Scope string_scope.
Local Open Scope Z_scope.

Set Implicit Arguments.

(** ** The environment of a [system] call *)

(** How one call of [system(3)] can end.  The command string is handed to
    the command interpreter; the call reports whether a child could be
    created at all and, if so, how the interpreter (and so the command)
    terminated. *)
Inductive sys_outcome : Type :=
| ForkFailed                  (* no child process could be created *)
| CommandNotFound             (* the interpreter found no such executable *)
| ChildExited (code : Z)      (* the command ran and exited with [code] *)
| ChildSignaled (sig : Z).    (* the command was killed by signal [sig] *)

(** The [int] that [system] returns: -1 when no child was created,
    otherwise the wait status (exit code in bits 8..15, a missing command
    being exit code 127 of the interpreter; terminating signal in bits 0..6). *)
Definition system_return (o : sys_outcome) : Z :=
  match o with
  | ForkFailed => -1
  | CommandNotFound => Z.shiftl 127 8
  | ChildExited code => Z.shiftl (Z.land code 255) 8
  | ChildSignaled sig => Z.land sig 127
  end.

(** The argument vector of the child that [system cmd] creates:
    [execl("/bin/sh", "sh", "-c", cmd, NULL)]. *)
Definition system_child_argv (cmd : string) : list string :=
  ["sh"; "-c"; cmd].

(** An environment answers the n-th [system] call of a run. *)
Definition environment : Type := nat -> sys_outcome.

(** ** Commands *)

(** The effects of the source, as a tree: [Put s] is [cout << s], [Flush]
    is the flush that [endl] performs, [System cmd] is [system(cmd)] and
    continues with the returned [int], and [Undefined] is a step the C++
    standard gives no meaning to. *)
Inductive io (A : Type) : Type :=
| Ret (a : A)
| Put (s : string) (k : io A)
| Flush (k : io A)
| System (cmd : string) (k : Z -> io A)
| Undefined.

Arguments Ret {A} a.
Arguments Put {A} s k.
Arguments Flush {A} k.
Arguments System {A} cmd k.
Arguments Undefined {A}.

Fixpoint bind {A B : Type} (p : io A) (f : A -> io B) : io B :=
  match p with
  | Ret a => f a
  | Put s k => Put s (bind k f)
  | Flush k => Flush (bind k f)
  | System cmd k => System cmd (fun r => bind (k r) f)
  | Undefined => Undefined
  end.

Declare Scope io_scope.
Delimit Scope io_scope with io.
Notation "x <- c ;; k" := (bind c (fun x => k))
  (at level 61, c at next level, right associativity) : io_scope.
Notation "c ;; k" := (bind c (fun _ => k))
  (at level 61, right associativity) : io_scope.
Local Open Scope io_scope.

(** [cout << s] *)
Definition cout (s : string) : io unit := Put s (Ret tt).

(** [cout << endl]: a newline, then a flush. *)
Definition endl : io unit := Put (String "010" EmptyString) (Flush (Ret tt)).

(** [system(cmd)], returning the status. *)
Definition system (cmd : string) : io Z := System cmd (fun r => Ret r).

(** ** Running a command tree *)

(** What the program did, in order. *)
Inductive event : Type :=
| EvPut (s : string)
| EvFlush
| EvSystem (cmd : string).

(** [exec env n p] runs [p] when [n] calls of [system] have been made
    before it.  The value is [None] when the run reached [Undefined]. *)
Fixpoint exec {A : Type} (env : environment) (n : nat) (p : io A)
  : list event * option A :=
  match p with
  | Ret a => ([], Some a)
  | Put s k => let (t, r) := exec env n k in (EvPut s :: t, r)
  | Flush k => let (t, r) := exec env n k in (EvFlush :: t, r)
  | System cmd k =>
      let (t, r) := exec env (S n) (k (system_return (env n))) in
      (EvSystem cmd :: t, r)
  | Undefined => ([], None)
  end.

(** The command strings given to [system], in order. *)
Fixpoint launches (t : list event) : list string :=
  match t with
  | [] => []
  | EvSystem cmd :: t' => cmd :: launches t'
  | _ :: t' => launches t'
  end.

(** The bytes written to standard output. *)
Fixpoint stdout_of (t : list event) : string :=
  match t with
  | [] => ""
  | EvPut s :: t' => s ++ stdout_of t'
  | _ :: t' => stdout_of t'
  end.

(** ** The program *)

Definition show_help : io unit :=
  cout "LXC Continer prototip" ;; endl.

Definition runtime : io unit :=
  cout "Запуск в контейнере" ;; endl ;;
  _ <- system "sudo lxc-start -f config/chroot.conf -n chroot -F" ;;
  cout "Остановка контейнера" ;; endl ;;
  Ret tt.

(** [argv[i]] converted to a [std::string].  [argv] holds [argc] strings
    and a terminating null pointer; reading the null pointer or past it as
    a string is undefined. *)
Definition argv_at (argv : list string) (i : nat) : io string :=
  match nth_error argv i with
  | Some s => Ret s
  | None => Undefined
  end.

(** [main(args, argv)], with [args] the length of [argv].  The branch on
    [action] yields [Some v] where the source returns [v] from inside it
    and [None] where control falls through to the final [return 0]. *)
Definition main (argv : list string) : io Z :=
  let args := Z.of_nat (length argv) in
  if args =? 1 then
    show_help ;; Ret 0
  else
    action <- argv_at argv 1 ;;
    early <- (if (action =? "--use-runtime")%string then
                runtime ;; Ret None
              else if (action =? "--help")%string then
                show_help ;; Ret (Some 0)
              else Ret None) ;;
    match early with
    | Some v => Ret v
    | None => Ret 0
    end.

(** The exit status a parent sees: the low eight bits of what [main] returns. *)
Definition process_exit_status (r : Z) : Z := Z.land r 255.

(** A whole run: the events of [main] and the exit status of the process. *)
Definition run_program (env : environment) (argv : list string)
  : list event * option Z :=
  let (t, r) := exec env 0 (main argv) in (t, option_map process_exit_status r).

(** The events of [show_help] and of [runtime]. *)
Definition help_trace : list event :=
  [EvPut "LXC Continer prototip"; EvPut (String "010" EmptyString); EvFlush].

Definition runtime_command : string :=
  "sudo lxc-start -f config/chroot.conf -n chroot -F".

Definition runtime_trace : list event :=
  [EvPut "Запуск в контейнере"; EvPut (String "010" EmptyString); EvFlush;
   EvSystem runtime_command;
   EvPut "Остановка контейнера"; EvPut (String "010" EmptyString); EvFlush].

(** ** The result type the specification describes *)

(** The outcome of a supervised run in the specification's words: an exit
    code on normal termination, or an error kind. *)
Inductive LaunchResult : Type :=
| Exited (exitCode : Z)
| LaunchFailed
| Interrupted.

(** The specification's [Launch], read on the outcome of the child:
    [Exited n] when the command ran and exited with [n], [LaunchFailed]
    when it could not be found or spawned, [Interrupted] when it was
    terminated by a signal before exiting. *)
Definition Launch_spec (o : sys_outcome) : LaunchResult :=
  match o with
  | ForkFailed => LaunchFailed
  | CommandNotFound => LaunchFailed
  | ChildExited code => Exited code
  | ChildSignaled _ => Interrupted
  end.

(** A launch passes the words of a command to the child as a discrete
    argument vector when the vector the child receives is those words. *)
Definition passes_discrete_vector (words : list string) (cmd : string) : Prop :=
  system_child_argv cmd = words.

(** ** The buffer of [std::cout] *)

(** The bytes written with [<<] that no flush has pushed out yet, after the
    events [t], when [buf] was pending before them.  A [system] call leaves
    the buffer of the calling process as it is. *)
Fixpoint unflushed (buf : string) (t : list event) : string :=
  match t with
  | [] => buf
  | EvPut s :: t' => unflushed (buf ++ s) t'
  | EvFlush :: t' => unflushed "" t'
  | EvSystem _ :: t' => unflushed buf t'
  end.

(** Whether the buffer is empty at every [system] call of [t]. *)
Fixpoint flushed_at_launch (buf : string) (t : list event) : bool :=
  match t with
  | [] => true
  | EvPut s :: t' => flushed_at_launch (buf ++ s) t'
  | EvFlush :: t' => flushed_at_launch "" t'
  | EvSystem _ :: t' => (buf =? "")%string && flushed_at_launch buf t'
  end.

(** * Properties *)

(** ** Running sequences *)

Section Exec.

Variable env : environment.

(** Running [p] and then [f]: the second part starts after the launches
    of the first, and is not run when the first is undefined. *)
Lemma exec_bind {A B : Type} (p : io A) (f : A -> io B) :
  forall n : nat,
    exec env n (bind p f) =
    match exec env n p with
    | (t1, Some a) =>
        let (t2, r) := exec env (n + length (launches t1)) (f a) in
        ((t1 ++ t2)%list, r)
    | (t1, None) => (t1, None)
    end.
Proof.
  induction p as [a | s k IH | k IH | cmd k IH |]; intros n; simpl.
  - rewrite Nat.add_0_r. destruct (exec env n (f a)); reflexivity.
  - rewrite IH. destruct (exec env n k) as [t1 [a |]]; simpl; [| reflexivity].
    destruct (exec env _ (f a)); reflexivity.
  - rewrite IH. destruct (exec env n k) as [t1 [a |]]; simpl; [| reflexivity].
    destruct (exec env _ (f a)); reflexivity.
  - rewrite IH.
    destruct (exec env (S n) (k _)) as [t1 [a |]]; simpl; [| reflexivity].
    rewrite Nat.add_succ_r.
    destruct (exec env _ (f a)); reflexivity.
  - reflexivity.
Qed.

(** The number of [system] calls made before a command does not change
    what a command without [system] does. *)
Lemma exec_show_help (n : nat) : exec env n show_help = (help_trace, Some tt).
Proof. reflexivity. Qed.

(** [runtime] never looks at what [system] returned. *)
Lemma exec_runtime (n : nat) : exec env n runtime = (runtime_trace, Some tt).
Proof. reflexivity. Qed.

Lemma args_two_or_more (p a : string) (rest : list string) :
  (Z.of_nat (length (p :: a :: rest)) =? 1) = false.
Proof. apply Z.eqb_neq. simpl length. lia. Qed.

(** [main] with at least one argument after the program name. *)
Lemma run_program_first_arg (p a : string) (rest : list string) :
  run_program env (p :: a :: rest) =
  if (a =? "--use-runtime")%string then (runtime_trace, Some 0)
  else if (a =? "--help")%string then (help_trace, Some 0)
  else ([], Some 0).
Proof.
  unfold run_program, main.
  rewrite args_two_or_more.
  change (argv_at (p :: a :: rest) 1) with (@Ret string a).
  cbn [bind].
  destruct (a =? "--use-runtime")%string; [reflexivity |].
  destruct (a =? "--help")%string; reflexivity.
Qed.

Lemma run_program_no_arg (p : string) :
  run_program env [p] = (help_trace, Some 0).
Proof. reflexivity. Qed.

Lemma run_program_no_argv :
  run_program env [] = ([], None).
Proof. reflexivity. Qed.

End Exec.

(** ** The launch of the external command *)

(** C1 does not hold as stated.  In the run [fast-chroot --use-runtime] the
    one launch is a call of [system] on a single string, the executable and
    its arguments joined by spaces; the child that is created is the command
    interpreter, [sh -c] of that string, so the words of the command are not
    its argument vector and the argument [config/chroot.conf] is no element
    of it. *)
Lemma C1_launch_is_shell_string_counterexample :
  let t := fst (run_program (fun _ => ChildExited 0)
                            ["fast-chroot"; "--use-runtime"]) in
  let words :=
    ["sudo"; "lxc-start"; "-f"; "config/chroot.conf"; "-n"; "chroot"; "-F"] in
  launches t = [String.concat " " words]
  /\ ~ passes_discrete_vector words (String.concat " " words)
  /\ map system_child_argv (launches t) =
     [["sh"; "-c"; "sudo lxc-start -f config/chroot.conf -n chroot -F"]]
  /\ ~ In "config/chroot.conf" (concat (map system_child_argv (launches t))).
Proof.
  cbv zeta. repeat split.
  - unfold passes_discrete_vector. vm_compute. discriminate.
  - vm_compute. intros [H | [H | [H | []]]]; discriminate H.
Qed.

(** C1, amended: in every run, whatever the arguments of the program and
    whatever the environment, each command given to [system] is the same
    constant string [sudo lxc-start -f config/chroot.conf -n chroot -F];
    it reaches the child as the single third element of [sh -c ...], and no
    part of it comes from the program's arguments. *)
Theorem C1_launch_is_fixed_shell_command
  (env : environment) (argv : list string) (cmd : string) :
  In cmd (launches (fst (run_program env argv))) ->
  cmd = runtime_command
  /\ system_child_argv cmd =
     ["sh"; "-c"; "sudo lxc-start -f config/chroot.conf -n chroot -F"].
Proof.
  intros Hin.
  assert (Hcmd : cmd = runtime_command).
  { destruct argv as [| p [| a rest]].
    - rewrite run_program_no_argv in Hin. destruct Hin.
    - rewrite run_program_no_arg in Hin. destruct Hin.
    - rewrite run_program_first_arg in Hin.
      destruct (a =? "--use-runtime")%string.
      + simpl in Hin. destruct Hin as [H | []]. symmetry. exact H.
      + destruct (a =? "--help")%string; destruct Hin. }
  subst cmd. split; reflexivity.
Qed.

Lemma C1_launch_is_fixed_shell_command_witness :
  In runtime_command
     (launches (fst (run_program (fun _ => ChildExited 0)
                                 ["fast-chroot"; "--use-runtime"; "; rm -rf /"])))
  /\ (runtime_command = runtime_command
      /\ system_child_argv runtime_command =
         ["sh"; "-c"; "sudo lxc-start -f config/chroot.conf -n chroot -F"]).
Proof.
  split.
  - simpl. left. reflexivity.
  - apply (@C1_launch_is_fixed_shell_command
             (fun _ => ChildExited 0)
             ["fast-chroot"; "--use-runtime"; "; rm -rf /"]).
    simpl. left. reflexivity.
Defined.

(** C2: when the first argument is [--use-runtime], the program gives the
    fixed command to [system] (between its two messages) and exits with
    status 0, however that call ends. *)
Theorem C2_use_runtime_exits_zero
  (env : environment) (p : string) (rest : list string) :
  run_program env (p :: "--use-runtime" :: rest) = (runtime_trace, Some 0)
  /\ launches runtime_trace =
     ["sudo lxc-start -f config/chroot.conf -n chroot -F"].
Proof.
  split; [| reflexivity].
  rewrite run_program_first_arg. reflexivity.
Qed.

(** ** The status of the child *)

(** C3 does not hold as stated.  A run whose child exits with status 1
    gives [runtime]'s caller, and the caller of the program, exactly what a
    run whose child exits with status 0 gives them: the status is dropped
    and the process exits with 0. *)
Lemma C3_nonzero_exit_dropped_counterexample :
  exec (fun _ => ChildExited 1) 0 runtime = exec (fun _ => ChildExited 0) 0 runtime
  /\ run_program (fun _ => ChildExited 1) ["fast-chroot"; "--use-runtime"] =
     run_program (fun _ => ChildExited 0) ["fast-chroot"; "--use-runtime"]
  /\ snd (run_program (fun _ => ChildExited 1) ["fast-chroot"; "--use-runtime"]) =
     Some 0.
Proof. repeat split. Qed.

(** C3, amended: [runtime] returns nothing and drops the status of the
    child.  What it hands to its caller, and the events and exit status of
    the whole program, are the same in any two environments. *)
Theorem C3_child_status_is_discarded
  (env1 env2 : environment) (n1 n2 : nat) (argv : list string) :
  exec env1 n1 runtime = exec env2 n2 runtime
  /\ run_program env1 argv = run_program env2 argv.
Proof.
  split.
  - rewrite !exec_runtime. reflexivity.
  - destruct argv as [| p [| a rest]].
    + reflexivity.
    + reflexivity.
    + rewrite !run_program_first_arg. reflexivity.
Qed.

(** C4 does not hold as stated.  [runtime] returns [void]; no reading of
    what it hands back yields [Exited N] for each of N = 0, 1, 127, since
    the three runs hand back the same thing. *)
Lemma C4_no_exited_result_counterexample :
  ~ exists decode : list event * option unit -> LaunchResult,
      forall N : Z, In N [0; 1; 127] ->
        decode (exec (fun _ => ChildExited N) 0 runtime) = Exited N.
Proof.
  intros [decode H].
  pose proof (H 0 (or_introl eq_refl)) as H0.
  pose proof (H 1 (or_intror (or_introl eq_refl))) as H1.
  rewrite exec_runtime in H0, H1.
  rewrite H0 in H1. discriminate H1.
Qed.

(** C4, amended: when the command runs and exits with code N, [runtime]
    prints its two messages around the launch and returns no value, the
    same for every N; the program then exits with status 0. *)
Theorem C4_runtime_returns_no_value
  (N : Z) (n : nat) (p : string) (rest : list string) :
  exec (fun _ => ChildExited N) n runtime = (runtime_trace, Some tt)
  /\ run_program (fun _ => ChildExited N) (p :: "--use-runtime" :: rest) =
     (runtime_trace, Some 0).
Proof.
  split.
  - apply exec_runtime.
  - rewrite run_program_first_arg. reflexivity.
Qed.

(** C5 does not hold as stated.  When the executable does not exist,
    [runtime] hands back what it hands back after a command that exited
    with 0, so nothing read from it can be [LaunchFailed] in the first case
    and [Exited 0] in the second, as the specification's [Launch] is. *)
Lemma C5_no_launch_failed_counterexample :
  Launch_spec CommandNotFound = LaunchFailed
  /\ Launch_spec (ChildExited 0) = Exited 0
  /\ ~ exists decode : list event * option unit -> LaunchResult,
         decode (exec (fun _ => CommandNotFound) 0 runtime) =
           Launch_spec CommandNotFound
         /\ decode (exec (fun _ => ChildExited 0) 0 runtime) =
           Launch_spec (ChildExited 0).
Proof.
  repeat split.
  intros [decode [Hfail Hok]].
  rewrite exec_runtime in Hfail, Hok.
  rewrite Hfail in Hok. discriminate Hok.
Qed.

(** C5, amended: when the executable cannot be found, or no child can be
    created, [runtime] still returns: it prints both messages, returns no
    value, and the program exits with status 0, exactly as after a command
    that ran and exited with 0. *)
Theorem C5_missing_executable_returns_normally
  (n : nat) (p : string) (rest : list string) :
  exec (fun _ => CommandNotFound) n runtime = (runtime_trace, Some tt)
  /\ exec (fun _ => ForkFailed) n runtime = (runtime_trace, Some tt)
  /\ exec (fun _ => CommandNotFound) n runtime =
     exec (fun _ => ChildExited 0) n runtime
  /\ run_program (fun _ => CommandNotFound) (p :: "--use-runtime" :: rest) =
     (runtime_trace, Some 0).
Proof.
  repeat split.
  rewrite run_program_first_arg. reflexivity.
Qed.

(** ** The command line *)

(** C6: with no argument, and with first argument [--help], the program
    prints the banner line and exits with status 0. *)
Theorem C6_help_prints_banner
  (env : environment) (p : string) (rest : list string) :
  run_program env [p] = (help_trace, Some 0)
  /\ run_program env (p :: "--help" :: rest) = (help_trace, Some 0)
  /\ stdout_of help_trace = "LXC Continer prototip" ++ String "010" "".
Proof.
  split; [| split].
  - apply run_program_no_arg.
  - rewrite run_program_first_arg. reflexivity.
  - reflexivity.
Qed.

(** C7: a run makes at most one call of [system], whatever the arguments
    and however the call ends; a launch that failed is not made again.
    The call is made exactly when the first argument is [--use-runtime]. *)
Theorem C7_at_most_one_launch (env : environment) (argv : list string) :
  (length (launches (fst (run_program env argv))) <= 1)%nat
  /\ launches (fst (run_program env argv)) =
     match nth_error argv 1 with
     | Some a => if (a =? "--use-runtime")%string then [runtime_command] else []
     | None => []
     end.
Proof.
  destruct argv as [| p [| a rest]].
  - rewrite run_program_no_argv. simpl. split; [lia | reflexivity].
  - rewrite run_program_no_arg. simpl. split; [lia | reflexivity].
  - rewrite run_program_first_arg. cbn [nth_error].
    destruct (a =? "--use-runtime")%string.
    + simpl. split; [lia | reflexivity].
    + destruct (a =? "--help")%string; simpl; (split; [lia | reflexivity]).
Qed.

(** C8: when the first argument is neither [--help] nor [--use-runtime],
    the program does nothing at all (no output, no launch) and exits with
    status 0. *)
Theorem C8_other_argument_is_silent
  (env : environment) (p a : string) (rest : list string) :
  a <> "--help" ->
  a <> "--use-runtime" ->
  run_program env (p :: a :: rest) = ([], Some 0)
  /\ stdout_of (fst (run_program env (p :: a :: rest))) = "".
Proof.
  intros Hhelp Hrun.
  rewrite run_program_first_arg.
  apply String.eqb_neq in Hhelp, Hrun.
  rewrite Hhelp, Hrun. split; reflexivity.
Qed.

Lemma C8_other_argument_is_silent_witness :
  "--version" <> "--help"
  /\ "--version" <> "--use-runtime"
  /\ (run_program (fun _ => ChildExited 0) ["fast-chroot"; "--version"; "x"] =
        ([], Some 0)
      /\ stdout_of (fst (run_program (fun _ => ChildExited 0)
                                     ["fast-chroot"; "--version"; "x"])) = "").
Proof.
  split; [discriminate | split; [discriminate |]].
  apply (@C8_other_argument_is_silent
           (fun _ => ChildExited 0) "fast-chroot" "--version" ["x"]);
    discriminate.
Defined.

(** C9: wherever [runtime] is run and however the launch ends, it first
    writes and flushes the start message, then calls [system], then writes
    and flushes the stop message. *)
Theorem C9_messages_around_launch (env : environment) (n : nat) :
  exec env n runtime =
  ([EvPut "Запуск в контейнере"; EvPut (String "010" ""); EvFlush;
    EvSystem "sudo lxc-start -f config/chroot.conf -n chroot -F";
    EvPut "Остановка контейнера"; EvPut (String "010" ""); EvFlush],
   Some tt).
Proof. apply exec_runtime. Qed.

(** C10: two runs started with a program name whose argument vectors agree
    at index 1 (the same first argument, or none in both) perform the same
    events and exit with the same status, whatever else follows on the
    command line. *)
Theorem C10_only_first_argument_matters
  (env1 env2 : environment) (argv1 argv2 : list string) :
  argv1 <> [] ->
  argv2 <> [] ->
  nth_error argv1 1 = nth_error argv2 1 ->
  run_program env1 argv1 = run_program env2 argv2.
Proof.
  intros H1 H2 Hfirst.
  destruct argv1 as [| p1 [| a1 rest1]]; [contradiction | |];
    destruct argv2 as [| p2 [| a2 rest2]];
    try contradiction; try discriminate Hfirst.
  - reflexivity.
  - injection Hfirst as ->.
    rewrite !run_program_first_arg. reflexivity.
Qed.

Lemma C10_only_first_argument_matters_witness :
  ["fast-chroot"; "--use-runtime"] <> []
  /\ ["./lxc"; "--use-runtime"; "--help"; "; rm -rf /"] <> []
  /\ nth_error ["fast-chroot"; "--use-runtime"] 1 =
     nth_error ["./lxc"; "--use-runtime"; "--help"; "; rm -rf /"] 1
  /\ run_program (fun _ => ChildExited 0) ["fast-chroot"; "--use-runtime"] =
     run_program (fun _ => CommandNotFound)
                 ["./lxc"; "--use-runtime"; "--help"; "; rm -rf /"].
Proof.
  split; [discriminate | split; [discriminate | split; [reflexivity |]]].
  apply (@C10_only_first_argument_matters
           (fun _ => ChildExited 0) (fun _ => CommandNotFound)
           ["fast-chroot"; "--use-runtime"]
           ["./lxc"; "--use-runtime"; "--help"; "; rm -rf /"]);
    [discriminate | discriminate | reflexivity].
Defined.

(** ** Further properties of [main] *)

(** X1: a run started with a program name always ends with exit status 0,
    whatever the arguments and however a launch ends; only a run with an
    empty argument vector, where [argv[1]] is read past the end, has no
    defined status. *)
Theorem X1_exit_status_always_zero (env : environment) (argv : list string) :
  snd (run_program env argv) =
  match argv with
  | [] => None
  | _ :: _ => Some 0
  end.
Proof.
  destruct argv as [| p [| a rest]].
  - rewrite run_program_no_argv. reflexivity.
  - rewrite run_program_no_arg. reflexivity.
  - rewrite run_program_first_arg.
    destruct (a =? "--use-runtime")%string; [reflexivity |].
    destruct (a =? "--help")%string; reflexivity.
Qed.

(** X2: the two options are compared in full.  A first argument that
    only starts with [--help] or with [--use-runtime] and goes on is not
    taken for the option: nothing is printed, nothing is launched, and the
    exit status is 0. *)
Theorem X2_options_match_exactly
  (env : environment) (p suffix : string) (rest : list string) :
  suffix <> "" ->
  run_program env (p :: ("--help" ++ suffix) :: rest) = ([], Some 0)
  /\ run_program env (p :: ("--use-runtime" ++ suffix) :: rest) = ([], Some 0).
Proof.
  intros Hsuffix.
  assert (Hempty : (suffix =? "")%string = false)
    by (apply String.eqb_neq; exact Hsuffix).
  split; rewrite run_program_first_arg; simpl; rewrite ?Hempty; reflexivity.
Qed.

Lemma X2_options_match_exactly_witness :
  "-all" <> ""
  /\ (run_program (fun _ => ChildExited 0) ["fast-chroot"; "--help" ++ "-all"] =
        ([], Some 0)
      /\ run_program (fun _ => ChildExited 0)
                     ["fast-chroot"; "--use-runtime" ++ "-all"] = ([], Some 0)).
Proof.
  split; [discriminate |].
  apply (@X2_options_match_exactly
           (fun _ => ChildExited 0) "fast-chroot" "-all" []).
  discriminate.
Defined.

(** X3: every message is written with [endl], so in every run the buffer
    of standard output is empty whenever [system] is called (the start
    message is out before the child can write) and empty again when [main]
    returns. *)
Theorem X3_output_flushed_before_launch
  (env : environment) (argv : list string) :
  flushed_at_launch "" (fst (run_program env argv)) = true
  /\ unflushed "" (fst (run_program env argv)) = "".
Proof.
  destruct argv as [| p [| a rest]].
  - rewrite run_program_no_argv. split; reflexivity.
  - rewrite run_program_no_arg. split; reflexivity.
  - rewrite run_program_first_arg.
    destruct (a =? "--use-runtime")%string; [split; reflexivity |].
    destruct (a =? "--help")%string; split; reflexivity.
Qed.
